(** * Gestionnaire d'abonnements: the computation core of [app.py]

    A shallow embedding of the renewal projection ([next_renewal_from]),
    of the enrichment of the loaded records ([to_dataframe]), of the
    dashboard queries ([renew_soon], [top3]) and of the three mutations of
    the store (create, cancel, delete), with the properties the
    specification states about them.

    Conventions.
    - A [datetime.date] is a record of three integers; Python only builds
      valid dates between years 1 and 9999, and raises [ValueError]
      otherwise ([mk_date]).
    - Python exceptions are the [Raise] outcome of the [result] monad; a
      loop that runs out of fuel is the [Diverge] outcome, and the
      termination theorems show that it never occurs.
    - [date.today()], [pd.Timestamp.today()] and [datetime.now()] read the
      clock: they are arguments of the functions that call them.
    - Python floats are kept abstract ([Float]): the properties proved
      here hold for every implementation of the float operations. *)

From Stdlib Require Import ZArith QArith Qround Ascii String.
From stdpp Require Import base tactics option list gmap strings sorting.

Local Open Scope string_scope.
Local Open Scope list_scope.
Local Open Scope Z_scope.

(** ** Outcomes of a Python computation *)

Inductive exn := ValueError | KeyError.

Inductive result (A : Type) :=
  | Ret (a : A)
  | Raise (e : exn)
  | Diverge.
Arguments Ret {A} a.
Arguments Raise {A} e.
Arguments Diverge {A}.

Global Instance result_ret : MRet result := @Ret.
Global Instance result_bind : MBind result := λ A B f m,
  match m with
  | Ret a => f a
  | Raise e => Raise e
  | Diverge => Diverge
  end.
Global Instance result_fmap : FMap result := λ A B f m,
  match m with
  | Ret a => Ret (f a)
  | Raise e => Raise e
  | Diverge => Diverge
  end.

(** ** Calendar dates ([datetime.date], [calendar]) *)

Record date := mkdate { year : Z; month : Z; day : Z }.

Global Instance date_eq_dec : EqDecision date.
Proof. solve_decision. Defined.

Definition MINYEAR : Z := 1.
Definition MAXYEAR : Z := 9999.

(** [calendar.isleap] *)
Definition isleap (y : Z) : bool :=
  (y mod 4 =? 0) && (negb (y mod 100 =? 0) || (y mod 400 =? 0)).

(** [calendar.mdays] *)
Definition mdays (m : Z) : Z :=
  match m with
  | 1 => 31 | 2 => 28 | 3 => 31 | 4 => 30 | 5 => 31 | 6 => 30
  | 7 => 31 | 8 => 31 | 9 => 30 | 10 => 31 | 11 => 30 | 12 => 31
  | _ => 0
  end.

(** [calendar.monthrange(y, m)[1]]: the number of days of month [m] of
    year [y]. *)
Definition monthrange_days (y m : Z) : Z :=
  mdays m + (if (m =? 2) && isleap y then 1 else 0).

Definition valid_date (d : date) : bool :=
  (MINYEAR <=? year d) && (year d <=? MAXYEAR) &&
  (1 <=? month d) && (month d <=? 12) &&
  (1 <=? day d) && (day d <=? monthrange_days (year d) (month d)).

(** [date(y, m, d)] and [date.replace]: the constructor checks its
    fields. *)
Definition mk_date (y m d : Z) : result date :=
  if valid_date (mkdate y m d) then Ret (mkdate y m d) else Raise ValueError.

(** Comparison of dates is the lexicographic comparison of
    (year, month, day). *)
Definition date_ltb (a b : date) : bool :=
  (year a <? year b) ||
  ((year a =? year b) &&
   ((month a <? month b) || ((month a =? month b) && (day a <? day b)))).

Definition date_leb (a b : date) : bool := negb (date_ltb b a).

(** [date.toordinal]: days since 0001-01-01, which is day 1. *)
Definition days_before_year (y : Z) : Z :=
  let p := y - 1 in p * 365 + p / 4 - p / 100 + p / 400.

Definition days_before_month (y m : Z) : Z :=
  match m with
  | 1 => 0 | 2 => 31 | 3 => 59 | 4 => 90 | 5 => 120 | 6 => 151
  | 7 => 181 | 8 => 212 | 9 => 243 | 10 => 273 | 11 => 304 | 12 => 334
  | _ => 0
  end + (if (2 <? m) && isleap y then 1 else 0).

Definition toordinal (d : date) : Z :=
  days_before_year (year d) + days_before_month (year d) (month d) + day d.

(** ** [dateutil.relativedelta] *)

(** Only the two fields the frequency table sets; every other field of a
    [relativedelta] keeps its neutral default. *)
Record relativedelta := mkdelta { years : Z; months : Z }.

(** [relativedelta.__radd__]: the year and month are moved, the day is
    clamped to the length of the target month, and [date.replace] builds
    the new date. *)
Definition relativedelta_add (delta : relativedelta) (other : date) : result date :=
  let y := year other + years delta in
  let m := month other in
  let '(y, m) :=
    if months delta =? 0 then (y, m)
    else
      let m := m + months delta in
      if 12 <? m then (y + 1, m - 12)
      else if m <? 1 then (y - 1, m + 12)
      else (y, m) in
  let d := Z.min (monthrange_days y m) (day other) in
  mk_date y m d.

(** ** Floats *)

(** The float operations the program uses.  [py_round2 x] is the builtin
    [round(x, 2)], [series_round2 x] is one cell of pandas'
    [Series.round(2)]. *)
Class Float (F : Type) := {
  f_zero : F;                 (* 0.0 *)
  f_one : F;                  (* 1.0 *)
  f_third : F;                (* 1/3 *)
  f_twelfth : F;              (* 1/12 *)
  f_twelve : F;               (* 12 *)
  f_mul : F → F → F;
  f_leb : F → F → bool;
  py_round2 : F → F;
  series_round2 : F → F;
}.

(** ** The frequency table *)

Section with_float.

Context {F : Type} `{Float F}.

Record frequence := mkfreq {
  libelle : string;
  facteur : F;
  delta : relativedelta;
}.

(** [relativedelta(months=1)], the value of [FREQUENCES["Mensuel"]]. *)
Definition MENSUEL : frequence := mkfreq "Mois" f_one (mkdelta 0 1).

Definition FREQUENCES : gmap string frequence :=
  {[ "Mensuel" := MENSUEL;
     "Trimestriel" := mkfreq "Trimestre" f_third (mkdelta 0 3);
     "Annuel" := mkfreq "Annuel" f_twelfth (mkdelta 1 0) ]}.

(** [FREQUENCES.get(freq_key, FREQUENCES["Mensuel"])] *)
Definition frequence_get (freq_key : string) : frequence :=
  default MENSUEL (FREQUENCES !! freq_key).

End with_float.

(** ** Parsing and printing dates *)

(** Strings are sequences of ASCII characters: the [\d] of the regular
    expression below is read as [[0-9]]. *)

Definition ord (c : ascii) : Z := Z.of_N (N_of_ascii c).

Definition in_range (lo hi c : ascii) : bool := (ord lo <=? ord c) && (ord c <=? ord hi).

Definition is_digit (c : ascii) : bool := in_range "0" "9" c.

Definition is_char (x c : ascii) : bool := ord x =? ord c.

(** [int] of one character of a matched group; the blank of the
    alternative [" [1-9]"] counts for nothing. *)
Definition digit (c : ascii) : Z := if is_digit c then ord c - 48 else 0.

(** One alternative of two characters, and one of a single character. *)
Definition alt2 (p1 p2 : ascii → bool) (s : string) : option (Z * string) :=
  match s with
  | String a (String b r) =>
      if p1 a && p2 b then Some (10 * digit a + digit b, r) else None
  | _ => None
  end.

Definition alt1 (p : ascii → bool) (s : string) : option (Z * string) :=
  match s with
  | String a r => if p a then Some (digit a, r) else None
  | _ => None
  end.

Definition or_else {A} (x y : option A) : option A :=
  match x with Some _ => x | None => y end.
Infix "|||" := or_else (at level 50, left associativity).

(** The groups of the regular expression that [_strptime] compiles for
    ["%Y-%m-%d"]:
    [(\d\d\d\d)-(1[0-2]|0[1-9]|[1-9])-(3[0-1]|[1-2]\d|0[1-9]|[1-9]| [1-9])].
    A month alternative that has matched is never given up for a shorter
    one, because the character after it must be the dash. *)
Definition re_Y (s : string) : option (Z * string) :=
  match s with
  | String a (String b (String c (String d r))) =>
      if is_digit a && is_digit b && is_digit c && is_digit d
      then Some (1000 * digit a + 100 * digit b + 10 * digit c + digit d, r)
      else None
  | _ => None
  end.

Definition re_dash (s : string) : option string :=
  match s with
  | String a r => if is_char "-" a then Some r else None
  | _ => None
  end.

Definition re_m (s : string) : option (Z * string) :=
  alt2 (is_char "1") (in_range "0" "2") s
  ||| alt2 (is_char "0") (in_range "1" "9") s
  ||| alt1 (in_range "1" "9") s.

Definition re_d (s : string) : option (Z * string) :=
  alt2 (is_char "3") (in_range "0" "1") s
  ||| alt2 (in_range "1" "2") is_digit s
  ||| alt2 (is_char "0") (in_range "1" "9") s
  ||| alt1 (in_range "1" "9") s
  ||| alt2 (is_char " ") (in_range "1" "9") s.

Definition re_match (s : string) : option (Z * Z * Z * string) :=
  '(y, s) ← re_Y s;
  s ← re_dash s;
  '(m, s) ← re_m s;
  s ← re_dash s;
  '(d, s) ← re_d s;
  Some (y, m, d, s).

(** [datetime.strptime(s, "%Y-%m-%d").date()]: [ValueError] when the
    expression does not match, when unconverted data remains after the
    match, or when the fields are not a date. *)
Definition strptime (s : string) : result date :=
  match re_match s with
  | Some (y, m, d, EmptyString) => mk_date y m d
  | _ => Raise ValueError
  end.

Definition digit_char (n : Z) : ascii := ascii_of_N (Z.to_N (48 + n mod 10)).

Definition pad2 (n : Z) : string :=
  String (digit_char (n / 10)) (String (digit_char n) EmptyString).

Definition pad4 (n : Z) : string :=
  String (digit_char (n / 1000)) (String (digit_char (n / 100)) (pad2 n)).

(** [d.strftime("%Y-%m-%d")], the year on four digits. *)
Definition strftime (d : date) : string :=
  pad4 (year d) +:+ "-" +:+ pad2 (month d) +:+ "-" +:+ pad2 (day d).

(** ** Cells *)

(** A cell of a pandas table, and the [next_renewal] entry of a persisted
    record (which the program may write as [null]): [Absent] when the
    table has no such column (the record no such key), [Null] for the
    missing value of an existing column ([NaN], [None], [NaT]). *)
Inductive cell (A : Type) :=
  | Absent
  | Null
  | Val (a : A).
Arguments Absent {A}.
Arguments Null {A}.
Arguments Val {A} a.

Definition is_absent {A} (c : cell A) : bool :=
  match c with Absent => true | _ => false end.

(** ** The renewal projection *)

(** [while d <= today: d += delta], with the number of iterations bounded
    by [fuel]. *)
Fixpoint while_loop (fuel : nat) (delta : relativedelta) (today d : date) : result date :=
  match fuel with
  | O => Diverge
  | S fuel =>
      if date_leb d today
      then d' ← relativedelta_add delta d; while_loop fuel delta today d'
      else Ret d
  end.

(** Months since year 0; [loop_bound] is more iterations than the loop
    can make ([while_loop_fuel]). *)
Definition month_index (d : date) : Z := 12 * year d + month d.

Definition loop_bound (today d : date) : nat :=
  S (Z.to_nat (month_index today - month_index d + 1)).

Section with_float_projection.

Context {F : Type} `{Float F}.

(** [next_renewal_from(start_str, freq_key)] *)
Definition next_renewal_from (today : date) (start_str freq_key : string)
  : result (option string) :=
  match strptime start_str with
  | Ret d =>
      let delta := delta (frequence_get freq_key) in
      d ← while_loop (loop_bound today d) delta today d;
      Ret (Some (strftime d))
  | _ => Ret None
  end.

(** ** Persisted records and the enriched table *)

(** One object of the JSON file; [None] is a key the object does not
    have. *)
Record item := mkitem {
  id : option Z;
  name : string;
  category : option string;
  cost : option F;
  frequency : option string;
  start_date : option string;
  next_renewal : cell string;
  payment_method : option string;
  notes : option string;
  status : option string;
  created_at : option string;
}.

(** One line of the table [to_dataframe] returns: the record it comes
    from, and the columns the function fills or rewrites. *)
Record row := mkrow {
  src : item;
  col_id : cell Z;
  col_status : option string;          (* [None]: NaN *)
  col_category : string;
  col_cost : F;
  monthly_cost : F;
  annual_cost : F;
  col_start_date : cell date;
  col_next_renewal : option date;      (* [None]: NaT *)
}.

(** [pd.to_datetime(column, errors="coerce").dt.date] on one cell that
    holds a string; [None] is [NaT]. *)
Variable to_datetime : string → option date.

(** A column built from a key of the records: absent from the table when
    no record has the key. *)
Definition column {A} (get : item → option A) (items : list item) (s : item) : cell A :=
  if existsb (λ s, bool_decide (is_Some (get s))) items
  then match get s with Some a => Val a | None => Null end
  else Absent.

(** [str(r.get("start_date", date.today()))] *)
Definition start_str_of (today : date) (c : cell string) : string :=
  match c with
  | Absent => strftime today
  | Null => "nan"
  | Val s => s
  end.

(** [r.get("frequency", "Mensuel")].  A missing cell is the float [nan],
    which is no key of [FREQUENCES]: the lookup falls back to the entry
    of ["Mensuel"], as it does for the default key. *)
Definition frequency_of (c : cell string) : string :=
  match c with
  | Val k => k
  | _ => "Mensuel"
  end.

(** The persisted [next_renewal] of a record, as the cell of the column
    holds it. *)
Definition persisted (s : item) : option string :=
  match next_renewal s with Val x => Some x | _ => None end.

Definition to_dataframe (today : date) (items : list item) : result (list row) :=
  match items with
  | [] => Ret []
  | _ =>
    let status_col (s : item) : option string :=
      match column status items s with
      | Absent => Some "active"
      | Null => None
      | Val x => Some x
      end in
    let start_col := column start_date items in
    let frequency_col := column frequency items in
    next_col ←
      (if forallb (λ s, is_absent (next_renewal s)) items
       then mapM (λ s, next_renewal_from today
                         (start_str_of today (start_col s))
                         (frequency_of (frequency_col s))) items
       else Ret (persisted <$> items));
    category_col ←
      (if existsb (λ s, bool_decide (is_Some (category s))) items
       then Ret (λ s : item, default "Non catégorisé" (category s))
       else Raise KeyError);
    cost_col ←
      (if existsb (λ s, bool_decide (is_Some (cost s))) items
       then Ret (λ s : item, default f_zero (cost s))
       else Raise KeyError);
    let monthly (s : item) : F :=
      py_round2 (f_mul (cost_col s)
                       (facteur (frequence_get (frequency_of (frequency_col s))))) in
    Ret (zip_with (λ s (nr : option string),
           {| src := s;
              col_id := column id items s;
              col_status := status_col s;
              col_category := category_col s;
              col_cost := cost_col s;
              monthly_cost := monthly s;
              annual_cost := series_round2 (f_mul (monthly s) f_twelve);
              col_start_date :=
                match start_col s with
                | Absent => Absent
                | Null => Null
                | Val x => match to_datetime x with Some d => Val d | None => Null end
                end;
              col_next_renewal := nr ≫= to_datetime |})
         items next_col)
  end.

(** ** Dashboard queries *)

(** A [pd.Timestamp]: a day and the nanoseconds elapsed since its
    midnight. *)
Record timestamp := mktimestamp { ts_date : date; ts_ns : Z }.

Definition NS_PER_DAY : Z := 86400 * 1000000000.

Definition valid_timestamp (t : timestamp) : bool :=
  valid_date (ts_date t) && (0 <=? ts_ns t) && (ts_ns t <? NS_PER_DAY).

(** Nanoseconds since the midnight that opens day 0. *)
Definition ts_value (ordinal ns : Z) : Z := ordinal * NS_PER_DAY + ns.

(** [df[df["status"] == "active"]] *)
Definition df_active (df : list row) : list row :=
  filter (λ r, col_status r = Some "active") df.

(** [df[df["status"] == "cancelled"]] *)
Definition df_resilie (df : list row) : list row :=
  filter (λ r, col_status r = Some "cancelled") df.

(** [pd.to_datetime(next_renewal) <= now + pd.Timedelta(days=7)] on one
    line; a comparison with [NaT] is false. *)
Definition renews_by (now : timestamp) (r : row) : bool :=
  match col_next_renewal r with
  | Some d =>
      ts_value (toordinal d) 0 <=? ts_value (toordinal (ts_date now) + 7) (ts_ns now)
  | None => false
  end.

Definition renew_soon (now : timestamp) (df : list row) : list row :=
  filter (λ r, renews_by now r = true) (df_active df).







(** The columns "Catégorie" and "Nombre" of [cat_summary]:
    [df_active.groupby("category")] with the count of the names, one line
    per category of the active lines, the categories in the order of the
    strings. *)
Definition string_le (a b : string) : Prop := String.leb a b = true.

Global Instance string_le_dec : RelDecision string_le.
Proof. intros a b. unfold string_le. apply _. Defined.

Definition cat_counts (df : list row) : list (string * nat) :=
  let act := df_active df in
  (λ k, (k, length (filter (λ r, col_category r = k) act)))
    <$> merge_sort string_le (remove_dups (col_category <$> act)).

(** ** The actions of the list of subscriptions *)

(** The value of [r.get("id", r["name"])] and of
    [s.get("id", s.get("name"))]. *)
Inductive key :=
  | KInt (n : Z)
  | KStr (s : string)
  | KNaN.

Global Instance key_eq_dec : EqDecision key.
Proof. solve_decision. Defined.

(** Python's [==] on these values: [nan] equals nothing, a number equals
    no string. *)
Definition key_eqb (a b : key) : bool :=
  match a, b with
  | KInt n, KInt m => n =? m
  | KStr s, KStr t => bool_decide (s = t)
  | _, _ => false
  end.

Definition row_key (r : row) : key :=
  match col_id r with
  | Absent => KStr (name (src r))
  | Null => KNaN
  | Val n => KInt n
  end.

Definition item_key (s : item) : key :=
  match id s with
  | Some n => KInt n
  | None => KStr (name s)
  end.

Definition set_status (v : string) (s : item) : item :=
  {| id := id s; name := name s; category := category s; cost := cost s;
     frequency := frequency s; start_date := start_date s;
     next_renewal := next_renewal s; payment_method := payment_method s;
     notes := notes s; status := Some v; created_at := created_at s |}.

(** The loop of the button "Résilier": the first record with the key of
    the line becomes cancelled. *)
Fixpoint cancel (k : key) (subscriptions : list item) : list item :=
  match subscriptions with
  | [] => []
  | s :: rest =>
      if key_eqb (item_key s) k then set_status "cancelled" s :: rest
      else s :: cancel k rest
  end.

(** The button "Supprimer": every record with the key of the line goes. *)
Definition delete (k : key) (subscriptions : list item) : list item :=
  filter (λ s, key_eqb (item_key s) k = false) subscriptions.

(** The button drawn on a line of the list. *)
Inductive button := Resilier | Supprimer.

Definition button_of (r : row) : button :=
  if bool_decide (col_status r = Some "active") then Resilier else Supprimer.

(** One click on the button of line [i] of the displayed lines [dff]
    (the filtered and sorted table); the result is the list
    [save_json] writes.  A line that is not displayed has no button. *)
Definition tab2_click (dff : list row) (i : nat) (subscriptions : list item) : list item :=
  match dff !! i with
  | Some r =>
      match button_of r with
      | Resilier => cancel (row_key r) subscriptions
      | Supprimer => delete (row_key r) subscriptions
      end
  | None => subscriptions
  end.

(** ** The form "Ajouter" *)

(** The values of the widgets on submit; [fm_name] and [fm_category] are
    the custom text stripped, or the choice of the select box. *)
Record form := mkform {
  fm_name : string;
  fm_category : string;
  fm_cost : F;
  fm_frequency : string;
  fm_start_date : date;
  fm_payment_method : string;
  fm_notes : string;
}.

Inductive message := Erreur | Succes.

Definition is_empty (s : string) : bool :=
  match s with EmptyString => true | _ => false end.

(** [max([s.get("id", 0) for s in subs] + [0]) + 1] *)
Definition new_id (subs : list item) : Z :=
  foldr Z.max 0 ((λ s, default 0 (id s)) <$> subs) + 1.

(** The body of [if submit:], on the content [store] of the file; it
    returns the content of the file afterwards.  [now_str] is the time of
    the submission as [datetime.now().strftime] prints it. *)
Definition add_sub_submit (today : date) (now_str : string) (fm : form)
    (store : list item) : result (list item * message) :=
  if is_empty (fm_name fm) || is_empty (fm_category fm) || f_leb (fm_cost fm) f_zero
  then Ret (store, Erreur)
  else
    let subs := store in
    let start_str := strftime (fm_start_date fm) in
    next_ren ← next_renewal_from today start_str (fm_frequency fm);
    let new :=
      {| id := Some (new_id subs);
         name := fm_name fm;
         category := Some (fm_category fm);
         cost := Some (fm_cost fm);
         frequency := Some (fm_frequency fm);
         start_date := Some start_str;
         next_renewal := match next_ren with Some x => Val x | None => Null end;
         payment_method := Some (fm_payment_method fm);
         notes := Some (fm_notes fm);
         status := Some "active";
         created_at := Some now_str |} in
    Ret (subs ++ [new], Succes).

(** ** The file *)

(** The content of [data/subscriptions.json], [None] when the file does
    not exist; [json.load] gives back the records [json.dump] wrote. *)
Definition ensure_store (file : option (list item)) : option (list item) :=
  match file with
  | None => Some []
  | Some _ => file
  end.

Definition load_json (file : option (list item)) : list item * option (list item) :=
  let file := ensure_store file in (default [] file, file).

Definition save_json (items : list item) (file : option (list item))
  : option (list item) := Some items.

(** One run of the script on a submission of the form: the loading and
    the table of the start of the script, then the body of [if submit:],
    which loads and saves only when the submission is accepted. *)
Definition run_submit (today : date) (now_str : string) (fm : form)
    (file : option (list item)) : result (option (list item)) :=
  let '(subscriptions, file) := load_json file in
  df ← to_dataframe today subscriptions;
  '(subs, msg) ← add_sub_submit today now_str fm subscriptions;
  Ret (match msg with
       | Succes => save_json subs (load_json file).2
       | Erreur => file
       end).

(** Runs of the script on successive submissions. *)
Fixpoint run_submits (evs : list (date * string * form))
    (file : option (list item)) : result (option (list item)) :=
  match evs with
  | [] => Ret file
  | (today, now_str, fm) :: evs =>
      file ← run_submit today now_str fm file; run_submits evs file
  end.

(** ** The filters of the list *)

(** [column.str.contains(q, case=False, na=False)] on one cell: pandas
    reads [q] as a regular expression and ignores case. *)
Variable str_contains : string → string → bool.

(** The three filters above the list: the search text, the status select
    box ("Tous", "Actifs", "Résiliés") and the category select box
    ("Toutes" or a category of the table). *)
Definition tab2_filter (q fstatus fcat : string) (df : list row) : list row :=
  let dff := df in
  let dff :=
    if is_empty q then dff
    else filter (λ r, str_contains q (name (src r))
                      || str_contains q (col_category r) = true) dff in
  let dff :=
    if bool_decide (fstatus = "Actifs")
    then filter (λ r, col_status r = Some "active") dff
    else if bool_decide (fstatus = "Résiliés")
    then filter (λ r, col_status r = Some "cancelled") dff
    else dff in
  if bool_decide (fcat ≠ "Toutes")
  then filter (λ r, col_category r = fcat) dff
  else dff.

(** The ids are 1, 2, ... in the order of the file. *)
Definition counted (store : list item) : Prop :=
  id <$> store = Some <$> seqZ 1 (Z.of_nat (length store)).

(** The stores of the data model: distinct keys, and one of the two
    statuses on every record. *)
Definition well_formed (subs : list item) : Prop :=
  NoDup (item_key <$> subs) ∧
  Forall (λ s, status s = Some "active" ∨ status s = Some "cancelled") subs.

End with_float_projection.

(** ** The text widgets of the form *)

(** The characters [str.strip] removes, among the ASCII ones. *)
Definition is_space (c : ascii) : bool :=
  ((9 <=? ord c) && (ord c <=? 13)) || ((28 <=? ord c) && (ord c <=? 32)).

Fixpoint lstrip (s : string) : string :=
  match s with
  | String c r => if is_space c then lstrip r else s
  | EmptyString => EmptyString
  end.

Fixpoint rstrip (s : string) : string :=
  match s with
  | String c r =>
      match rstrip r with
      | EmptyString => if is_space c then EmptyString else String c EmptyString
      | r' => String c r'
      end
  | EmptyString => EmptyString
  end.

(** [s.strip()] *)
Definition strip (s : string) : string := rstrip (lstrip s).

(** A text made of blanks only. *)
Fixpoint all_space (s : string) : bool :=
  match s with
  | String c r => is_space c && all_space r
  | EmptyString => true
  end.

(** [custom.strip() if custom else choice]: the value of a select box
    with a free text beside it (name, category, payment method). *)
Definition widget_value (custom choice : string) : string :=
  match custom with
  | EmptyString => choice
  | _ => strip custom
  end.

(** [to_datetime] on the strings the program itself writes. *)
Definition iso_date (s : string) : option date :=
  match strptime s with Ret d => Some d | _ => None end.

(** ** An instance to run the definitions *)

(** Exact rational arithmetic, with rounding to two decimals, half to
    even. *)
Definition Q_round2 (q : Q) : Q :=
  let n := Qfloor (q * 100) in
  let r := (q * 100 - inject_Z n)%Q in
  let up := match (r ?= 1 # 2)%Q with
            | Lt => false
            | Eq => Z.odd n
            | Gt => true
            end in
  Qred (inject_Z (if up then n + 1 else n) / 100).

Global Instance Q_float : Float Q := {|
  f_zero := 0%Q;
  f_one := 1%Q;
  f_third := (1 # 3)%Q;
  f_twelfth := (1 # 12)%Q;
  f_twelve := 12%Q;
  f_mul := λ x y, Qred (x * y);
  f_leb := Qle_bool;
  py_round2 := Q_round2;
  series_round2 := Q_round2;
|}.

(** ** Sample records *)

Definition sample (n : Z) (nm : string) (c : Q) (freq start : string)
    (nr : cell string) (st : string) : @item Q :=
  {| id := Some n; name := nm; category := Some "Vidéo"; cost := Some c;
     frequency := Some freq; start_date := Some start; next_renewal := nr;
     payment_method := Some "PayPal"; notes := Some ""; status := Some st;
     created_at := Some "2024-01-15 09:00:00" |}.

(** A subscription as the form writes it on 2024-01-15. *)
Definition netflix : @item Q :=
  sample 1 "Netflix" (1599 # 100) "Mensuel" "2024-01-15" (Val "2024-02-15") "active".


Definition canal : @item Q :=
  sample 3 "Canal+" 120 "Annuel" "2023-06-01" (Val "2024-06-01") "cancelled".

(** A record written by hand, with the name, the category and the cost
    only. *)
Definition molotov : @item Q :=
  {| id := None; name := "Molotov"; category := Some "Vidéo"; cost := Some 5%Q;
     frequency := None; start_date := None; next_renewal := Absent;
     payment_method := None; notes := None; status := None; created_at := None |}.

(** A submission of the form on 2024-03-10. *)
Definition spotify : @form Q :=
  {| fm_name := "Spotify"; fm_category := "Musique"; fm_cost := (1099 # 100)%Q;
     fm_frequency := "Mensuel"; fm_start_date := mkdate 2024 3 1;
     fm_payment_method := "PayPal"; fm_notes := "" |}.

(** The dashboard is opened on 2024-03-10, at noon. *)
Definition sample_today : date := mkdate 2024 3 10.

Definition sample_now : timestamp := mktimestamp sample_today (NS_PER_DAY / 2).

(** ** Notions used in the statements *)

(** The three steps of the frequency table. *)
Definition in_table (delta : relativedelta) : Prop :=
  delta = mkdelta 0 1 ∨ delta = mkdelta 0 3 ∨ delta = mkdelta 1 0.

(** [k] calendar steps from [d]. *)
Fixpoint steps (k : nat) (delta : relativedelta) (d : date) : result date :=
  match k with
  | O => Ret d
  | S k => d' ← relativedelta_add delta d; steps k delta d'
  end.

(** * Properties *)

(** ** Dates *)

Lemma valid_date_spec d :
  valid_date d = true ↔
  1 ≤ year d ≤ 9999 ∧ 1 ≤ month d ≤ 12 ∧
  1 ≤ day d ≤ monthrange_days (year d) (month d).
Proof.
  unfold valid_date, MINYEAR, MAXYEAR.
  rewrite !andb_true_iff, !Z.leb_le. lia.
Qed.

Lemma month_cases m :
  1 ≤ m ≤ 12 →
  m = 1 ∨ m = 2 ∨ m = 3 ∨ m = 4 ∨ m = 5 ∨ m = 6 ∨
  m = 7 ∨ m = 8 ∨ m = 9 ∨ m = 10 ∨ m = 11 ∨ m = 12.
Proof. lia. Qed.

Lemma monthrange_days_bounds y m :
  1 ≤ m ≤ 12 → 28 ≤ monthrange_days y m ≤ 31.
Proof.
  intros Hm. unfold monthrange_days.
  destruct (month_cases m Hm) as [->|[->|[->|[->|[->|[->|[->|[->|[->|[->|[->| ->]]]]]]]]]]];
    simpl; destruct (isleap y); lia.
Qed.

Lemma mk_date_Ret y m d x :
  mk_date y m d = Ret x → x = mkdate y m d ∧ valid_date x = true.
Proof.
  unfold mk_date. destruct (valid_date (mkdate y m d)) eqn:Hv; [|discriminate].
  intros [= <-]. done.
Qed.

Lemma mk_date_outcome y m d :
  mk_date y m d = Raise ValueError ∨ mk_date y m d = Ret (mkdate y m d).
Proof. unfold mk_date. destruct (valid_date _); auto. Qed.

Lemma date_ltb_spec a b :
  date_ltb a b = true ↔
  year a < year b ∨
  (year a = year b ∧ (month a < month b ∨ (month a = month b ∧ day a < day b))).
Proof.
  unfold date_ltb.
  rewrite !orb_true_iff, !andb_true_iff, !orb_true_iff, !andb_true_iff, !Z.ltb_lt, !Z.eqb_eq. lia.
Qed.

Lemma date_leb_spec a b :
  date_leb a b = true ↔
  year a < year b ∨
  (year a = year b ∧ (month a < month b ∨ (month a = month b ∧ day a ≤ day b))).
Proof.
  unfold date_leb. rewrite negb_true_iff, <- not_true_iff_false, date_ltb_spec. lia.
Qed.

Lemma date_leb_false a b : date_leb a b = false ↔ date_ltb b a = true.
Proof. unfold date_leb. destruct (date_ltb b a); simpl; split; congruence. Qed.

Lemma date_leb_month_index a b :
  valid_date a = true → valid_date b = true →
  date_leb a b = true → month_index a ≤ month_index b.
Proof.
  rewrite !valid_date_spec, date_leb_spec. unfold month_index. lia.
Qed.

Lemma month_index_ltb a b :
  valid_date a = true → valid_date b = true →
  month_index a < month_index b → date_ltb a b = true.
Proof.
  rewrite !valid_date_spec, date_ltb_spec. unfold month_index. lia.
Qed.

(** ** One calendar step *)

Lemma relativedelta_add_outcome delta d :
  relativedelta_add delta d = Raise ValueError ∨
  ∃ d', relativedelta_add delta d = Ret d'.
Proof.
  unfold relativedelta_add.
  destruct (if months delta =? 0 then _ else _) as [y m].
  destruct (mk_date_outcome y m (Z.min (monthrange_days y m) (day d))); eauto.
Qed.

(** A step of the table moves the date forward by one, three or twelve
    months, and keeps it a date. *)
Lemma relativedelta_add_Ret delta d d' :
  in_table delta → valid_date d = true →
  relativedelta_add delta d = Ret d' →
  valid_date d' = true ∧
  month_index d' = month_index d + 12 * years delta + months delta ∧
  date_ltb d d' = true.
Proof.
  intros Ht Hd Hadd.
  assert (valid_date d' = true ∧
          month_index d' = month_index d + 12 * years delta + months delta) as [Hv Hi].
  { revert Hadd. unfold relativedelta_add, month_index.
    destruct Ht as [-> | [-> | ->]]; simpl;
      repeat case_match; try discriminate;
      intros [-> ?]%mk_date_Ret; simplify_eq/=; split; try done; lia. }
  split_and!; try done.
  apply month_index_ltb; try done.
  destruct Ht as [-> | [-> | ->]]; simpl in *; lia.
Qed.

(** Below the last year of the calendar, the step never fails. *)
Lemma relativedelta_add_total delta d :
  in_table delta → valid_date d = true → year d < MAXYEAR →
  ∃ d', relativedelta_add delta d = Ret d'.
Proof.
  intros Ht Hd Hy. unfold MAXYEAR in Hy.
  apply valid_date_spec in Hd as (Hyr & Hm & Hday).
  unfold relativedelta_add.
  destruct (if months delta =? 0 then _ else _) as [y m] eqn:Hym.
  assert (1 ≤ y ≤ 9999 ∧ 1 ≤ m ≤ 12) as [Hy' Hm'].
  { destruct Ht as [-> | [-> | ->]]; simpl in Hym;
      repeat case_match; simplify_eq; lia. }
  pose proof (monthrange_days_bounds y m Hm') as Hb.
  eexists. unfold mk_date.
  replace (valid_date _) with true; [done|].
  symmetry. apply valid_date_spec. simpl. lia.
Qed.

(** ** The forward walk *)

Lemma while_loop_outcome fuel delta today d :
  while_loop fuel delta today d = Diverge ∨
  while_loop fuel delta today d = Raise ValueError ∨
  ∃ d', while_loop fuel delta today d = Ret d'.
Proof.
  revert d. induction fuel as [|fuel IH]; intros d; simpl; [auto|].
  destruct (date_leb d today); [|eauto].
  destruct (relativedelta_add_outcome delta d) as [-> | [d' ->]]; simpl; auto.
Qed.

(** More fuel does not change the outcome of a loop that has finished. *)
Lemma while_loop_more_fuel fuel fuel' delta today d :
  (fuel ≤ fuel')%nat →
  while_loop fuel delta today d ≠ Diverge →
  while_loop fuel' delta today d = while_loop fuel delta today d.
Proof.
  revert fuel' d. induction fuel as [|fuel IH]; intros fuel' d Hle Hr; simpl in *; [done|].
  destruct fuel' as [|fuel']; [lia|]. simpl.
  destruct (date_leb d today); [|done].
  destruct (relativedelta_add delta d) as [d'| |]; simpl in *; try done.
  apply IH; [lia|done].
Qed.

(** [loop_bound] iterations are enough. *)
Lemma while_loop_fuel delta today :
  in_table delta → valid_date today = true →
  ∀ fuel d, valid_date d = true → (loop_bound today d ≤ fuel)%nat →
  while_loop fuel delta today d ≠ Diverge.
Proof.
  intros Ht Htoday. unfold loop_bound.
  induction fuel as [|fuel IH]; intros d Hd Hfuel; [lia|]. simpl.
  destruct (date_leb d today) eqn:Hle; [|done].
  destruct (relativedelta_add delta d) as [d'| |] eqn:Hadd; simpl; try done.
  - destruct (relativedelta_add_Ret _ _ _ Ht Hd Hadd) as (Hd' & Hi & _).
    apply IH; [done|].
    pose proof (date_leb_month_index _ _ Hd Htoday Hle).
    destruct Ht as [-> | [-> | ->]]; simpl in *; lia.
  - destruct (relativedelta_add_outcome delta d) as [? | [? ?]]; congruence.
Qed.

(** What the loop returns is the first candidate after [today]. *)
Lemma while_loop_Ret fuel delta today d d' :
  while_loop fuel delta today d = Ret d' →
  ∃ k, steps k delta d = Ret d' ∧ date_ltb today d' = true ∧
       ∀ j, (j < k)%nat → ∃ dj, steps j delta d = Ret dj ∧ date_leb dj today = true.
Proof.
  revert d. induction fuel as [|fuel IH]; intros d; simpl; [done|].
  destruct (date_leb d today) eqn:Hle.
  - destruct (relativedelta_add delta d) as [d1| |] eqn:Hadd; simpl; try done.
    intros (k & Hk & Hlt & Hbefore)%IH.
    exists (S k). simpl. rewrite Hadd. simpl. split_and!; try done.
    intros [|j] Hj; simpl; [eauto|].
    rewrite Hadd. simpl. apply Hbefore. lia.
  - intros [= <-]. exists 0%nat. simpl. split_and!; try done.
    + by apply date_leb_false.
    + lia.
Qed.

(** Before the last year of the calendar the loop returns a date. *)
Lemma while_loop_returns delta today :
  in_table delta → valid_date today = true → year today < MAXYEAR →
  ∀ fuel d, valid_date d = true → (loop_bound today d ≤ fuel)%nat →
  ∃ d', while_loop fuel delta today d = Ret d'.
Proof.
  intros Ht Htoday Hy. unfold loop_bound.
  induction fuel as [|fuel IH]; intros d Hd Hfuel; [lia|]. simpl.
  destruct (date_leb d today) eqn:Hle; [|eauto].
  destruct (relativedelta_add_total delta d Ht Hd) as [d' Hadd].
  { apply date_leb_spec in Hle. lia. }
  rewrite Hadd. simpl.
  destruct (relativedelta_add_Ret _ _ _ Ht Hd Hadd) as (Hd' & Hi & _).
  apply IH; [done|].
  pose proof (date_leb_month_index _ _ Hd Htoday Hle).
  destruct Ht as [-> | [-> | ->]]; simpl in *; lia.
Qed.

(** ** Parsing *)

Lemma strptime_outcome s :
  strptime s = Raise ValueError ∨ ∃ d, strptime s = Ret d ∧ valid_date d = true.
Proof.
  unfold strptime. destruct (re_match s) as [[[[y m] d] [|c r]]|]; auto.
  destruct (mk_date y m d) as [x| |] eqn:Hx.
  - right. exists x. split; [done|]. by apply mk_date_Ret in Hx as [_ ?].
  - left. destruct (mk_date_outcome y m d); congruence.
  - destruct (mk_date_outcome y m d); congruence.
Qed.

(** What [strftime] prints, [strptime] reads back. *)
Lemma digit_char_spec n :
  is_digit (digit_char n) = true ∧ digit (digit_char n) = n mod 10.
Proof.
  unfold digit_char.
  assert (0 ≤ n mod 10 < 10) as Hn by (apply Z.mod_pos_bound; lia).
  destruct (decide (n mod 10 = 0)) as [-> | ?]; [done|].
  destruct (decide (n mod 10 = 1)) as [-> | ?]; [done|].
  destruct (decide (n mod 10 = 2)) as [-> | ?]; [done|].
  destruct (decide (n mod 10 = 3)) as [-> | ?]; [done|].
  destruct (decide (n mod 10 = 4)) as [-> | ?]; [done|].
  destruct (decide (n mod 10 = 5)) as [-> | ?]; [done|].
  destruct (decide (n mod 10 = 6)) as [-> | ?]; [done|].
  destruct (decide (n mod 10 = 7)) as [-> | ?]; [done|].
  destruct (decide (n mod 10 = 8)) as [-> | ?]; [done|].
  destruct (decide (n mod 10 = 9)) as [-> | ?]; [done|lia].
Qed.

Lemma re_Y_digits y rest :
  0 ≤ y ≤ 9999 →
  re_Y (String (digit_char (y / 1000)) (String (digit_char (y / 100))
         (String (digit_char (y / 10)) (String (digit_char y) rest))))
  = Some (y, rest).
Proof.
  intros Hy. unfold re_Y.
  destruct (digit_char_spec (y / 1000)) as [-> ->].
  destruct (digit_char_spec (y / 100)) as [-> ->].
  destruct (digit_char_spec (y / 10)) as [-> ->].
  destruct (digit_char_spec y) as [-> ->].
  simpl. do 2 f_equal. Z.div_mod_to_equations. lia.
Qed.

Lemma re_m_digits m rest :
  1 ≤ m ≤ 12 →
  re_m (String (digit_char (m / 10)) (String (digit_char m) rest)) = Some (m, rest).
Proof.
  intros Hm.
  destruct (month_cases m Hm) as [->|[->|[->|[->|[->|[->|[->|[->|[->|[->|[->| ->]]]]]]]]]]];
    reflexivity.
Qed.

Lemma re_d_digits d :
  1 ≤ d ≤ 31 →
  re_d (String (digit_char (d / 10)) (String (digit_char d) "")) = Some (d, "").
Proof.
  intros Hd.
  assert (∃ n : nat, (n < 31)%nat ∧ d = Z.of_nat n + 1) as (n & Hn & ->).
  { exists (Z.to_nat (d - 1)). lia. }
  do 31 (destruct n as [|n]; [reflexivity|]). lia.
Qed.

Lemma strptime_strftime d : valid_date d = true → strptime (strftime d) = Ret d.
Proof.
  intros Hv. pose proof Hv as (Hy & Hm & Hd)%valid_date_spec.
  pose proof (monthrange_days_bounds (year d) (month d) Hm).
  unfold strptime, strftime, re_match, pad4, pad2.
  cbv [String.append].
  rewrite re_Y_digits by lia. cbn [mbind option_bind re_dash].
  change (is_char "-" "-") with true. cbn [mbind option_bind].
  rewrite re_m_digits by lia. cbn [mbind option_bind re_dash].
  change (is_char "-" "-") with true. cbn [mbind option_bind].
  rewrite re_d_digits by lia. cbn [mbind option_bind].
  unfold mk_date. destruct d as [y m dd]. cbn [year month day] in *. by rewrite Hv.
Qed.

Section properties.

Context {F : Type} `{Float F}.
Variable to_datetime : string → option date.

Local Abbreviation item := (@item F).
Local Abbreviation row := (@row F).

(** ** The frequency table *)

Lemma FREQUENCES_lookup (k : string) :
  FREQUENCES !! k =
  if decide (k = "Mensuel") then Some MENSUEL
  else if decide (k = "Trimestriel") then Some (mkfreq "Trimestre" f_third (mkdelta 0 3))
  else if decide (k = "Annuel") then Some (mkfreq "Annuel" f_twelfth (mkdelta 1 0))
  else None.
Proof.
  unfold FREQUENCES.
  rewrite !lookup_insert, lookup_singleton.
  repeat case_decide; simplify_eq; done.
Qed.

Lemma frequence_get_in_table k : in_table (delta (frequence_get k)).
Proof.
  unfold frequence_get, in_table. rewrite FREQUENCES_lookup.
  repeat case_decide; simpl; auto.
Qed.

(** ** The renewal projection *)

Lemma next_renewal_from_parsed today start_str freq_key d :
  strptime start_str = Ret d →
  next_renewal_from today start_str freq_key =
  (d' ← while_loop (loop_bound today d) (delta (frequence_get freq_key)) today d;
   Ret (Some (strftime d'))).
Proof. unfold next_renewal_from. by intros ->. Qed.

Lemma strptime_valid start_str d : strptime start_str = Ret d → valid_date d = true.
Proof.
  intros Hd. destruct (strptime_outcome start_str) as [? | (d' & ? & ?)]; congruence.
Qed.

(** C10: the forward walk of [next_renewal_from] terminates.  Every step
    of the frequency table moves the candidate at least one month
    forward, so that [loop_bound] iterations exhaust the walk: whatever
    larger number of iterations is allowed, the loop ends with the same
    outcome, which is not [Diverge]; and when [today] is before the last
    year of the calendar the candidate passes [today] after finitely many
    steps. *)
Theorem next_renewal_loop_terminates today start_str freq_key d :
  valid_date today = true →
  strptime start_str = Ret d →
  let delta := delta (frequence_get freq_key) in
  (∀ d1 d2, valid_date d1 = true → relativedelta_add delta d1 = Ret d2 →
     month_index d1 + 1 ≤ month_index d2 ∧ date_ltb d1 d2 = true) ∧
  (∃ r, r ≠ Diverge ∧
     ∀ fuel, (loop_bound today d ≤ fuel)%nat → while_loop fuel delta today d = r) ∧
  next_renewal_from today start_str freq_key ≠ Diverge ∧
  (year today < MAXYEAR →
     ∃ k d', steps k delta d = Ret d' ∧ date_ltb today d' = true).
Proof.
  intros Htoday Hparse delta0.
  pose proof (frequence_get_in_table freq_key) as Ht. fold delta0 in Ht.
  pose proof (strptime_valid _ _ Hparse) as Hd.
  pose proof (while_loop_fuel delta0 today Ht Htoday _ d Hd (le_n _)) as Hfuel.
  split_and!.
  - intros d1 d2 Hd1 Hadd.
    destruct (relativedelta_add_Ret _ _ _ Ht Hd1 Hadd) as (_ & Hi & Hlt).
    split; [|done]. destruct Ht as [Hx | [Hx | Hx]]; rewrite Hx in Hi; simpl in Hi; lia.
  - exists (while_loop (loop_bound today d) delta0 today d). split; [done|].
    intros fuel Hle. by apply while_loop_more_fuel.
  - rewrite (next_renewal_from_parsed _ _ _ _ Hparse). fold delta0.
    destruct (while_loop _ delta0 today d); done.
  - intros Hy.
    destruct (while_loop_returns delta0 today Ht Htoday Hy _ d Hd (le_n _)) as [d' Hd'].
    apply while_loop_Ret in Hd' as (k & Hk & Hlt & _). eauto.
Qed.

(** C1, amended: for every parsable start date, every frequency and every
    [today] before the last year of the calendar, [next_renewal_from]
    returns the first date after [today] met when walking from the start
    date by calendar steps: it is reached in a whole number [k] of steps
    (possibly none), it is strictly after [today], and every earlier
    candidate is at most [today]. *)
Theorem next_renewal_from_first_after today start_str freq_key d0 :
  valid_date today = true → year today < MAXYEAR →
  strptime start_str = Ret d0 →
  ∃ k d',
    next_renewal_from today start_str freq_key = Ret (Some (strftime d')) ∧
    steps k (delta (frequence_get freq_key)) d0 = Ret d' ∧
    date_ltb today d' = true ∧
    ∀ j, (j < k)%nat →
      ∃ dj, steps j (delta (frequence_get freq_key)) d0 = Ret dj ∧
            date_leb dj today = true.
Proof.
  intros Htoday Hy Hparse.
  pose proof (frequence_get_in_table freq_key) as Ht.
  pose proof (strptime_valid _ _ Hparse) as Hd.
  destruct (while_loop_returns _ today Ht Htoday Hy _ d0 Hd (le_n _)) as [d' Hd'].
  destruct (while_loop_Ret _ _ _ _ _ Hd') as (k & Hk & Hlt & Hbefore).
  exists k, d'. split_and!; try done.
  rewrite (next_renewal_from_parsed _ _ _ _ Hparse), Hd'. done.
Qed.

(** C4: [next_renewal_from] answers [None], and no date, exactly on the
    start dates that [strptime] refuses. *)
Theorem next_renewal_from_unparsable today start_str freq_key :
  next_renewal_from today start_str freq_key = Ret None ↔
  strptime start_str = Raise ValueError.
Proof.
  split.
  - destruct (strptime_outcome start_str) as [? | (d & Hparse & _)]; [done|].
    rewrite (next_renewal_from_parsed _ _ _ _ Hparse).
    destruct (while_loop _ _ today d); simpl; discriminate.
  - unfold next_renewal_from. by intros ->.
Qed.

(** ** The enriched table *)

Lemma mapM_result_Ret {A B} (f : A → result B) (l : list A) (l' : list B) :
  mapM f l = Ret l' → Forall2 (λ x y, f x = Ret y) l l'.
Proof.
  revert l'. induction l as [|x l IH]; intros l'; simpl.
  - intros [= <-]. constructor.
  - destruct (f x) as [y| |] eqn:Hy; simpl; try done.
    destruct (mapM f l) as [k| |]; simpl; try done.
    intros [= <-]. constructor; eauto.
Qed.

Lemma column_elem {A} (get : item → option A) (items : list item) (s : item) a :
  s ∈ items → get s = Some a → column get items s = Val a.
Proof.
  intros Hs Ha. unfold column. rewrite Ha.
  destruct (existsb _ items) eqn:Hex; [done|].
  apply not_true_iff_false in Hex. destruct Hex.
  apply existsb_exists. exists s. split; [by apply list_elem_of_In|].
  apply bool_decide_eq_true. rewrite Ha. eauto.
Qed.

Lemma column_missing {A} (get : item → option A) (items : list item) (s : item) :
  get s = None → column get items s = Absent ∨ column get items s = Null.
Proof. intros Ha. unfold column. rewrite Ha. destruct (existsb _ items); auto. Qed.

Lemma frequency_of_column (items : list item) (s : item) :
  s ∈ items →
  frequency_of (column frequency items s) = default "Mensuel" (frequency s).
Proof.
  intros Hs. destruct (frequency s) as [k|] eqn:Hk; simpl.
  - by rewrite (column_elem _ _ _ _ Hs Hk).
  - by destruct (column_missing frequency items s Hk) as [-> | ->].
Qed.

(** Line [i] of the table is built from record [i] of the file. *)
Lemma to_dataframe_lookup today (items : list item) df i s :
  to_dataframe to_datetime today items = Ret df →
  items !! i = Some s →
  ∃ r nr,
    df !! i = Some r ∧ src r = s ∧
    col_id r = column id items s ∧
    col_status r =
      match column status items s with
      | Absent => Some "active" | Null => None | Val x => Some x
      end ∧
    col_cost r = default f_zero (cost s) ∧
    monthly_cost r =
      py_round2 (f_mul (default f_zero (cost s))
                   (facteur (frequence_get (default "Mensuel" (frequency s))))) ∧
    annual_cost r = series_round2 (f_mul (monthly_cost r) f_twelve) ∧
    col_next_renewal r = nr ≫= to_datetime ∧
    (if forallb (λ s, is_absent (next_renewal s)) items
     then next_renewal_from today (start_str_of today (column start_date items s))
            (default "Mensuel" (frequency s)) = Ret nr
     else nr = persisted s).
Proof.
  intros Hdf Hi.
  assert (s ∈ items) as Hs by (by eapply list_elem_of_lookup_2).
  unfold to_dataframe in Hdf.
  destruct items as [|s0 items']; [done|].
  set (items := s0 :: items') in *. clearbody items.
  destruct (_ : result (list (option string))) as [next_col| |] eqn:Hnext in Hdf;
    simpl in Hdf; try done.
  destruct (existsb (λ s, bool_decide (is_Some (category s))) items);
    simpl in Hdf; [|done].
  destruct (existsb (λ s, bool_decide (is_Some (cost s))) items);
    simpl in Hdf; [|done].
  injection Hdf as <-.
  assert (∃ nr, next_col !! i = Some nr ∧
    (if forallb (λ s, is_absent (next_renewal s)) items
     then next_renewal_from today (start_str_of today (column start_date items s))
            (default "Mensuel" (frequency s)) = Ret nr
     else nr = persisted s)) as (nr & Hnr & Hcase).
  { destruct (forallb _ items).
    - apply mapM_result_Ret in Hnext.
      destruct (Forall2_lookup_l _ _ _ _ _ Hnext Hi) as (nr & Hnr & Hf).
      exists nr. split; [done|]. by rewrite <- (frequency_of_column items s Hs).
    - injection Hnext as <-. exists (persisted s).
      split; [|done]. by rewrite list_lookup_fmap, Hi. }
  eexists _, nr. rewrite lookup_zip_with, Hi. simpl. rewrite Hnr. simpl.
  split; [done|]. simpl. rewrite (frequency_of_column items s Hs). done.
Qed.


(** C2: for every record with a cost and one of the three frequencies,
    the enriched line has [monthly_cost = round(cost * factor, 2)], with
    the factor 1, 1/3 or 1/12 of the frequency, and
    [annual_cost = round(monthly_cost * 12, 2)]: the annual cost is
    derived from the rounded monthly cost, and is rounded again. *)
Theorem to_dataframe_costs today (items : list item) df i s c k :
  to_dataframe to_datetime today items = Ret df →
  items !! i = Some s → cost s = Some c → frequency s = Some k →
  k = "Mensuel" ∨ k = "Trimestriel" ∨ k = "Annuel" →
  ∃ r, df !! i = Some r ∧ src r = s ∧
    monthly_cost r =
      py_round2 (f_mul c (if decide (k = "Mensuel") then f_one
                          else if decide (k = "Trimestriel") then f_third
                          else f_twelfth)) ∧
    annual_cost r = series_round2 (f_mul (monthly_cost r) f_twelve).
Proof.
  intros Hdf Hi Hc Hk Hfreq.
  destruct (to_dataframe_lookup _ _ _ _ _ Hdf Hi)
    as (r & nr & Hr & Hsrc & _ & _ & _ & Hm & Ha & _).
  exists r. split_and!; try done.
  rewrite Hm, Hc, Hk. simpl. unfold frequence_get. rewrite FREQUENCES_lookup.
  destruct Hfreq as [-> | [-> | ->]]; repeat case_decide; done.
Qed.

(** C3, amended: the table takes a fresh projection only when no loaded
    record carries a [next_renewal]; then the [next_renewal] of every line
    is what [next_renewal_from] projects from the start date and the
    frequency of its record.  As soon as one loaded record carries a
    [next_renewal], no projection is made: every line keeps what its
    record persisted (nothing, when it persisted nothing). *)
Theorem to_dataframe_next_renewal today (items : list item) df i s :
  to_dataframe to_datetime today items = Ret df →
  items !! i = Some s →
  ∃ r, df !! i = Some r ∧ src r = s ∧
    if forallb (λ s, is_absent (next_renewal s)) items
    then ∃ nr,
      next_renewal_from today (start_str_of today (column start_date items s))
        (default "Mensuel" (frequency s)) = Ret nr ∧
      col_next_renewal r = nr ≫= to_datetime ∧
      ∀ x, start_date s = Some x →
        next_renewal_from today x (default "Mensuel" (frequency s)) = Ret nr
    else col_next_renewal r = persisted s ≫= to_datetime.
Proof.
  intros Hdf Hi.
  assert (s ∈ items) as Hs by (by eapply list_elem_of_lookup_2).
  destruct (to_dataframe_lookup _ _ _ _ _ Hdf Hi)
    as (r & nr & Hr & Hsrc & _ & _ & _ & _ & _ & Hn & Hcase).
  exists r. split_and!; try done.
  destruct (forallb _ items).
  - exists nr. split_and!; try done.
    intros x Hx. by rewrite (column_elem _ _ _ _ Hs Hx) in Hcase.
  - by rewrite Hn, Hcase.
Qed.


(** ** Renewals to come *)

(** X8: [renew_soon] keeps exactly the active lines whose [next_renewal]
    is at most seven days after today, the seventh day included; a line
    without a renewal date is never kept, and there is no bound on the
    past. *)
Lemma renew_soon_spec now (df : list row) r :
  valid_timestamp now = true →
  r ∈ renew_soon now df ↔
  r ∈ df ∧ col_status r = Some "active" ∧
  ∃ d, col_next_renewal r = Some d ∧ toordinal d ≤ toordinal (ts_date now) + 7.
Proof.
  unfold valid_timestamp. rewrite !andb_true_iff, Z.leb_le, Z.ltb_lt.
  intros [[_ Hns0] Hns].
  unfold renew_soon, df_active. rewrite !list_elem_of_filter.
  unfold renews_by, ts_value, NS_PER_DAY in *.
  destruct (col_next_renewal r) as [d|].
  - rewrite Z.leb_le. split.
    + intros (Hle & Hst & Hr). split_and!; try done. exists d. split; [done|lia].
    + intros (Hr & Hst & d' & [= <-] & Hle). split_and!; try done. lia.
  - split; [intros (? & _); done | intros (_ & _ & d & ? & _); done].
Qed.

Lemma renew_soon_sublist now (df : list row) : renew_soon now df `sublist_of` df.
Proof.
  unfold renew_soon, df_active.
  etrans; apply sublist_filter.
Qed.

(** ** The most expensive subscriptions *)



Section order.

Hypothesis f_leb_trans :
  ∀ x y z : F, f_leb x y = true → f_leb y z = true → f_leb x z = true.
Hypothesis f_leb_total : ∀ x y : F, f_leb x y = true ∨ f_leb y x = true.





End order.


(** ** Creation *)

Lemma is_empty_spec s : is_empty s = true ↔ s = "".
Proof. destruct s; simpl; split; congruence. Qed.

(** C6: a submission with an empty name, an empty category or a cost that
    is not positive is refused before the file is read or written: the
    answer is the error message and the content of the file is the one
    before.  No other submission is answered that way. *)
Theorem add_sub_submit_rejected today now_str fm (store : list item) :
  fm_name fm = "" ∨ fm_category fm = "" ∨ f_leb (fm_cost fm) f_zero = true ↔
  add_sub_submit today now_str fm store = Ret (store, Erreur).
Proof.
  unfold add_sub_submit.
  rewrite <- !is_empty_spec, <- !orb_true_iff, orb_assoc.
  destruct (_ || _ || _) eqn:Hcheck; [done|].
  split; [done|].
  destruct (next_renewal_from _ _ _) as [nr| |]; simpl; [|done..].
  intros [= _ ?]. 
Qed.

Lemma new_id_fresh (subs : list item) s n :
  s ∈ subs → id s = Some n → n < new_id subs.
Proof.
  unfold new_id. induction subs as [|s0 subs IH]; csimpl.
  - by intros ?%elem_of_nil.
  - intros [-> | Hs]%elem_of_cons Hn.
    + rewrite Hn. simpl. lia.
    + specialize (IH Hs Hn). lia.
Qed.

(** X17: before the last year of the calendar, a submission with a name,
    a category and a positive cost is accepted: one record is appended
    after the records of the file, active, under an id that no record of
    the file has, and with a renewal date strictly after today (never
    [null]). *)
Lemma add_sub_submit_accepted today now_str fm (store : list item) :
  valid_date today = true → year today < MAXYEAR →
  valid_date (fm_start_date fm) = true →
  fm_name fm ≠ "" → fm_category fm ≠ "" → f_leb (fm_cost fm) f_zero = false →
  ∃ new d,
    add_sub_submit today now_str fm store = Ret (store ++ [new], Succes) ∧
    id new = Some (new_id store) ∧
    (∀ s, s ∈ store → id s ≠ id new) ∧
    status new = Some "active" ∧
    next_renewal new = Val (strftime d) ∧
    date_ltb today d = true.
Proof.
  intros Htoday Hy Hstart Hname Hcat Hcost.
  pose proof (strptime_strftime _ Hstart) as Hparse.
  destruct (while_loop_returns _ today (frequence_get_in_table (fm_frequency fm))
              Htoday Hy _ _ Hstart (le_n _)) as [d Hd].
  destruct (while_loop_Ret _ _ _ _ _ Hd) as (_ & _ & Hlt & _).
  unfold add_sub_submit.
  rewrite <- is_empty_spec, not_true_iff_false in Hname, Hcat.
  rewrite Hname, Hcat, Hcost, (next_renewal_from_parsed _ _ _ _ Hparse), Hd. simpl.
  eexists _, d. split_and!; try done.
  intros s Hs Heq. simpl in Heq.
  pose proof (new_id_fresh _ _ _ Hs Heq). lia.
Qed.

(** ** Cancellation and deletion *)

Lemma key_eqb_eq a b : key_eqb a b = true → a = b.
Proof.
  destruct a, b; simpl; try done.
  - by intros ->%Z.eqb_eq.
  - by intros ->%bool_decide_eq_true.
Qed.


(** Cancelling removes no record. *)
Lemma cancel_keys k (subs : list item) :
  item_key <$> cancel k subs = item_key <$> subs.
Proof.
  induction subs as [|s subs IH]; csimpl; [done|].
  destruct (key_eqb (item_key s) k); csimpl; [done|]. by rewrite IH.
Qed.







(** ** More on the projection *)

Lemma date_leb_refl d : date_leb d d = true.
Proof. apply date_leb_spec. lia. Qed.







(** From today's own date the projection is one calendar step after
    today. *)
Lemma next_renewal_from_today today freq_key d' :
  valid_date today = true →
  relativedelta_add (delta (frequence_get freq_key)) today = Ret d' →
  next_renewal_from today (strftime today) freq_key = Ret (Some (strftime d')).
Proof.
  intros Htoday Hadd.
  destruct (relativedelta_add_Ret _ _ _ (frequence_get_in_table freq_key) Htoday Hadd)
    as (_ & _ & Hlt).
  rewrite (next_renewal_from_parsed _ _ _ _ (strptime_strftime _ Htoday)).
  unfold loop_bound. replace (month_index today - month_index today + 1) with 1 by lia.
  simpl. rewrite date_leb_refl, Hadd. simpl.
  by rewrite (proj2 (date_leb_false d' today) Hlt).
Qed.


Lemma next_renewal_from_today_raises today freq_key e :
  valid_date today = true →
  relativedelta_add (delta (frequence_get freq_key)) today = Raise e →
  next_renewal_from today (strftime today) freq_key = Raise e.
Proof.
  intros Htoday Hadd.
  rewrite (next_renewal_from_parsed _ _ _ _ (strptime_strftime _ Htoday)).
  unfold loop_bound. replace (month_index today - month_index today + 1) with 1 by lia.
  simpl. by rewrite date_leb_refl, Hadd.
Qed.

(** Before the last year of the calendar the projection raises nothing. *)
Lemma next_renewal_from_total today start_str freq_key :
  valid_date today = true → year today < MAXYEAR →
  ∃ o, next_renewal_from today start_str freq_key = Ret o.
Proof.
  intros Htoday Hy.
  destruct (strptime_outcome start_str) as [Hs | (d0 & Hs & Hd0)].
  - exists None. unfold next_renewal_from. by rewrite Hs.
  - destruct (while_loop_returns _ today (frequence_get_in_table freq_key)
                Htoday Hy _ d0 Hd0 (le_n _)) as [d' Hd'].
    exists (Some (strftime d')).
    by rewrite (next_renewal_from_parsed _ _ _ _ Hs), Hd'.
Qed.

(** ** More on the enriched table *)

Lemma mapM_result_total {A B} (f : A → result B) (l : list A) :
  (∀ x, ∃ y, f x = Ret y) → ∃ l', mapM f l = Ret l'.
Proof.
  intros Hf. induction l as [|x l [l' IH]]; simpl; [by eexists|].
  destruct (Hf x) as [y ->]. simpl. rewrite IH. simpl. by eexists.
Qed.

Lemma existsb_is_Some {A} (get : item → option A) (items : list item) :
  existsb (λ s, bool_decide (is_Some (get s))) items = true ↔
  ∃ s, s ∈ items ∧ is_Some (get s).
Proof.
  rewrite existsb_exists. split; intros (s & Hs & Hget); exists s.
  - split; [by apply list_elem_of_In|]. by apply bool_decide_eq_true in Hget.
  - split; [by apply list_elem_of_In|]. by apply bool_decide_eq_true.
Qed.

Lemma existsb_is_Some_false {A} (get : item → option A) (items : list item) :
  existsb (λ s, bool_decide (is_Some (get s))) items = false ↔
  ∀ s, s ∈ items → get s = None.
Proof.
  rewrite <- not_true_iff_false, existsb_is_Some. split.
  - intros Hno s Hs. destruct (get s) eqn:Hget; [|done].
    destruct Hno. exists s. rewrite Hget. eauto.
  - intros Hall (s & Hs & [a Ha]). rewrite (Hall s Hs) in Ha. done.
Qed.

Lemma forallb_absent (items : list item) :
  forallb (λ s, is_absent (next_renewal s)) items = true ↔
  ∀ s, s ∈ items → next_renewal s = Absent.
Proof.
  rewrite forallb_forall. split; intros Hall s Hs.
  - apply list_elem_of_In, Hall in Hs. by destruct (next_renewal s).
  - apply list_elem_of_In in Hs. by rewrite (Hall s Hs).
Qed.


(** X3: in a file where no record has a [start_date] nor a
    [next_renewal], the table projects every renewal from today: the
    [next_renewal] of each line is one calendar step of its frequency
    after today. *)
Theorem to_dataframe_no_start_date today (items : list item) df i s :
  valid_date today = true →
  to_dataframe to_datetime today items = Ret df →
  (∀ s, s ∈ items → start_date s = None ∧ next_renewal s = Absent) →
  items !! i = Some s →
  ∃ r d',
    df !! i = Some r ∧
    relativedelta_add (delta (frequence_get (default "Mensuel" (frequency s)))) today
      = Ret d' ∧
    col_next_renewal r = to_datetime (strftime d').
Proof.
  intros Htoday Hdf Hall Hi.
  destruct (to_dataframe_lookup _ _ _ _ _ Hdf Hi)
    as (r & nr & Hr & _ & _ & _ & _ & _ & _ & Hcol & Hcase).
  rewrite (proj2 (forallb_absent items)) in Hcase by (intros ? ?; by apply Hall).
  assert (column start_date items s = Absent) as Hstart.
  { unfold column. rewrite (proj2 (existsb_is_Some_false start_date items)); [done|].
    intros ? ?. by apply Hall. }
  rewrite Hstart in Hcase. simpl in Hcase.
  destruct (relativedelta_add (delta (frequence_get (default "Mensuel" (frequency s)))) today)
    as [d'| |] eqn:Hadd.
  - rewrite (next_renewal_from_today _ _ _ Htoday Hadd) in Hcase.
    injection Hcase as <-. exists r, d'. by rewrite Hcol.
  - by rewrite (next_renewal_from_today_raises _ _ _ Htoday Hadd) in Hcase.
  - destruct (relativedelta_add_outcome
                (delta (frequence_get (default "Mensuel" (frequency s)))) today)
      as [? | [? ?]]; congruence.
Qed.

(** X4: when the table projects the renewals (no record has a
    [next_renewal]), a record whose start date does not parse, or that
    lacks the start date other records have, gets no renewal date, and is
    never among the renewals to come. *)
Theorem to_dataframe_unparsable_start today (items : list item) df i s :
  to_dataframe to_datetime today items = Ret df →
  (∀ s, s ∈ items → next_renewal s = Absent) →
  items !! i = Some s →
  (∃ x, start_date s = Some x ∧ strptime x = Raise ValueError) ∨
  (start_date s = None ∧ ∃ s', s' ∈ items ∧ is_Some (start_date s')) →
  ∃ r, df !! i = Some r ∧ col_next_renewal r = None ∧
       ∀ now, r ∉ renew_soon now df.
Proof.
  intros Hdf Hall Hi Hstart.
  assert (s ∈ items) as Hs by (by eapply list_elem_of_lookup_2).
  destruct (to_dataframe_lookup _ _ _ _ _ Hdf Hi)
    as (r & nr & Hr & _ & _ & _ & _ & _ & _ & Hcol & Hcase).
  rewrite (proj2 (forallb_absent items) Hall) in Hcase.
  assert (strptime (start_str_of today (column start_date items s)) = Raise ValueError)
    as Hbad.
  { destruct Hstart as [(x & Hx & Hparse) | (Hnone & Hsome)].
    - by rewrite (column_elem _ _ _ _ Hs Hx).
    - unfold column. rewrite (proj2 (existsb_is_Some start_date items) Hsome), Hnone.
      reflexivity. }
  unfold next_renewal_from in Hcase. rewrite Hbad in Hcase. injection Hcase as <-.
  exists r. split_and!; try done.
  intros now. unfold renew_soon. rewrite list_elem_of_filter.
  unfold renews_by. rewrite Hcol. simpl. by intros [? _].
Qed.

(** X5: before the last year of the calendar, a file that is not empty
    loads into a table exactly when at least one record has a [category]
    and at least one has a [cost]; otherwise [to_dataframe] raises
    [KeyError]. *)
Theorem to_dataframe_KeyError today (items : list item) :
  valid_date today = true → year today < MAXYEAR →
  items ≠ [] →
  ((∃ s, s ∈ items ∧ is_Some (category s)) ∧ (∃ s, s ∈ items ∧ is_Some (cost s)) →
     ∃ df, to_dataframe to_datetime today items = Ret df) ∧
  ((∀ s, s ∈ items → category s = None) ∨ (∀ s, s ∈ items → cost s = None) →
     to_dataframe to_datetime today items = Raise KeyError).
Proof.
  intros Htoday Hy Hne.
  unfold to_dataframe.
  destruct items as [|s0 items']; [done|].
  set (items := s0 :: items') in *. clearbody items.
  assert (∃ next_col,
    (if forallb (λ s, is_absent (next_renewal s)) items
     then mapM (λ s, next_renewal_from today
                       (start_str_of today (column start_date items s))
                       (frequency_of (column frequency items s))) items
     else Ret (persisted <$> items)) = Ret next_col) as [next_col ->].
  { destruct (forallb _ items); [|by eexists].
    apply mapM_result_total. intros s. by apply next_renewal_from_total. }
  simpl. split.
  - intros [Hcat%existsb_is_Some Hcost%existsb_is_Some].
    rewrite Hcat, Hcost. simpl. by eexists.
  - intros [Hcat%existsb_is_Some_false | Hcost%existsb_is_Some_false].
    + by rewrite Hcat.
    + rewrite Hcost.
      by destruct (existsb (λ s, bool_decide (is_Some (category s))) items).
Qed.




(** ** More on the dashboard *)

(** X9: the renewals to come do not depend on the time of the day at
    which the dashboard is opened. *)
Theorem renew_soon_all_day d ns ns' (df : list row) :
  0 ≤ ns < NS_PER_DAY → 0 ≤ ns' < NS_PER_DAY →
  renew_soon (mktimestamp d ns) df = renew_soon (mktimestamp d ns') df.
Proof.
  intros Hns Hns'. unfold renew_soon. apply list_filter_iff. intros r.
  unfold renews_by, ts_value, NS_PER_DAY in *. simpl.
  destruct (col_next_renewal r) as [d'|]; [|done].
  rewrite !Z.leb_le. lia.
Qed.

(** X10: the two counters of the dashboard count disjoint lines, and
    together they count every line exactly when every line is active or
    cancelled. *)
Theorem kpi_counts (df : list row) :
  (∀ r, r ∈ df_active df → r ∉ df_resilie df) ∧
  (length (df_active df) + length (df_resilie df) ≤ length df)%nat ∧
  ((length (df_active df) + length (df_resilie df) = length df)%nat ↔
   Forall (λ r, col_status r = Some "active" ∨ col_status r = Some "cancelled") df).
Proof.
  unfold df_active, df_resilie. split.
  - intros r [Ha _]%list_elem_of_filter [Hr _]%list_elem_of_filter. congruence.
  - induction df as [|r df [IHle IHeq]]; [by split; [|split; [done|constructor]]|].
    rewrite !filter_cons.
    pose proof (length_filter (λ r, col_status r = Some "active") df).
    pose proof (length_filter (λ r, col_status r = Some "cancelled") df).
    rewrite Forall_cons.
    destruct (decide (col_status r = Some "active")) as [Ha | Ha];
      destruct (decide (col_status r = Some "cancelled")) as [Hc | Hc];
      simpl; try congruence.
    + split; [lia|]. rewrite <- IHeq. split; [intros; split; [auto|lia] | intros [_ ?]; lia].
    + split; [lia|]. rewrite <- IHeq. split; [intros; split; [auto|lia] | intros [_ ?]; lia].
    + split; [lia|]. split; [lia | intros [[?|?] _]; done].
Qed.

(** ** More on the list of subscriptions *)

Lemma key_eqb_item_key (s : item) : key_eqb (item_key s) (item_key s) = true.
Proof.
  unfold item_key. destruct (id s); simpl.
  - apply Z.eqb_refl.
  - by apply bool_decide_eq_true.
Qed.

Lemma key_eqb_NaN k : key_eqb k KNaN = false.
Proof. by destruct k. Qed.

Lemma cancel_no_match k (l : list item) :
  (∀ s, s ∈ l → key_eqb (item_key s) k = false) → cancel k l = l.
Proof.
  induction l as [|s l IH]; intros Hall; simpl; [done|].
  rewrite (Hall s) by left. rewrite IH; [done|].
  intros s' Hs'. apply Hall. by right.
Qed.

Lemma delete_no_match k (l : list item) :
  (∀ s, s ∈ l → key_eqb (item_key s) k = false) → delete k l = l.
Proof.
  unfold delete. induction l as [|s l IH]; intros Hall; [done|].
  rewrite filter_cons_True by (apply Hall; left).
  rewrite IH; [done|]. intros s' Hs'. apply Hall. by right.
Qed.





(** X11: a record without an id, in a file where another record has
    one, can be neither cancelled nor deleted: the click on its line
    leaves the file as it is. *)
Theorem tab2_click_without_id today (items : list item) df i s :
  to_dataframe to_datetime today items = Ret df →
  items !! i = Some s → id s = None →
  (∃ s', s' ∈ items ∧ is_Some (id s')) →
  tab2_click df i items = items.
Proof.
  intros Hdf Hi Hnone Hsome.
  destruct (to_dataframe_lookup _ _ _ _ _ Hdf Hi)
    as (r & nr & Hr & _ & Hid & _).
  assert (row_key r = KNaN) as Hkey.
  { unfold row_key, column in *.
    by rewrite Hid, (proj2 (existsb_is_Some id items) Hsome), Hnone. }
  unfold tab2_click. rewrite Hr, Hkey.
  destruct (button_of r).
  - apply cancel_no_match. intros ? _. apply key_eqb_NaN.
  - apply delete_no_match. intros ? _. apply key_eqb_NaN.
Qed.




(** ** The filters *)

Variable str_contains : string → string → bool.

Lemma tab2_filter_elem q fstatus fcat (df : list row) r :
  r ∈ tab2_filter str_contains q fstatus fcat df →
  (fstatus = "Actifs" → col_status r = Some "active") ∧
  (fstatus = "Résiliés" → col_status r = Some "cancelled").
Proof.
  unfold tab2_filter.
  destruct (is_empty q); repeat case_bool_decide; rewrite ?list_elem_of_filter;
    intuition (subst; congruence).
Qed.


(** X15: under the status filter "Actifs" every button of the list is
    "Résilier", so no click removes a record; under "Résiliés" every
    button is "Supprimer", so a click only removes records. *)
Theorem tab2_filter_buttons q fcat (df : list row) i (subs : list item) :
  item_key <$> tab2_click (tab2_filter str_contains q "Actifs" fcat df) i subs
    = item_key <$> subs ∧
  tab2_click (tab2_filter str_contains q "Résiliés" fcat df) i subs `sublist_of` subs.
Proof.
  split; unfold tab2_click.
  - destruct (_ !! i) as [r|] eqn:Hr; [|done].
    apply list_elem_of_lookup_2, tab2_filter_elem in Hr as [Hst _].
    unfold button_of. rewrite bool_decide_eq_true_2 by auto. apply cancel_keys.
  - destruct (_ !! i) as [r|] eqn:Hr; [|done].
    apply list_elem_of_lookup_2, tab2_filter_elem in Hr as [_ Hst].
    unfold button_of. rewrite Hst by done.
    rewrite bool_decide_eq_false_2 by done. apply sublist_filter.
Qed.

(** ** What the mutations keep *)

Lemma cancel_Forall (P : item → Prop) k (subs : list item) :
  (∀ s, P s → P (set_status "cancelled" s)) →
  Forall P subs → Forall P (cancel k subs).
Proof.
  intros Hset. induction 1 as [|s subs Hs Hsubs IH]; simpl; [constructor|].
  destruct (key_eqb (item_key s) k); constructor; auto.
Qed.

Lemma add_sub_submit_inv today now_str fm (store store' : list item) msg :
  add_sub_submit today now_str fm store = Ret (store', msg) →
  (store' = store ∧ msg = Erreur) ∨
  ∃ new, store' = store ++ [new] ∧ msg = Succes ∧
         id new = Some (new_id store) ∧ status new = Some "active".
Proof.
  unfold add_sub_submit. destruct (_ || _ || _).
  - intros [= <- <-]. by left.
  - destruct (next_renewal_from _ _ _) as [nr| |]; simpl; try done.
    intros [= <- <-]. right. by eexists.
Qed.

Lemma new_id_not_key (store : list item) :
  KInt (new_id store) ∉ item_key <$> store.
Proof.
  intros (s & Hkey & Hs)%list_elem_of_fmap.
  unfold item_key in Hkey. destruct (id s) as [n|] eqn:Hn; [|done].
  injection Hkey as Hkey. pose proof (new_id_fresh _ _ _ Hs Hn). lia.
Qed.

(** X16: the stores of the data model stay so: after any click of the
    list, and after any submission of the form, the keys of the records
    are still distinct and every record is still active or cancelled. *)
Theorem well_formed_kept (subs : list item) :
  well_formed subs →
  (∀ dff i, well_formed (tab2_click dff i subs)) ∧
  (∀ today now_str fm subs' msg,
     add_sub_submit today now_str fm subs = Ret (subs', msg) → well_formed subs').
Proof.
  intros [Hnd Hst]. split.
  - intros dff i. unfold tab2_click.
    destruct (dff !! i) as [r|]; [|done].
    destruct (button_of r); split.
    + by rewrite cancel_keys.
    + apply cancel_Forall; [|done]. intros s _. by right.
    + eapply sublist_NoDup; [done|]. apply fmap_sublist, sublist_filter.
    + rewrite Forall_forall in *. intros s [_ Hs]%list_elem_of_filter. by apply Hst.
  - intros today now_str fm subs' msg
      [[-> _] | (new & -> & _ & Hid & Hnew)]%add_sub_submit_inv; [done|].
    split.
    + rewrite fmap_app. apply NoDup_app. split_and!; [done| |apply NoDup_singleton].
      intros k Hk ->%list_elem_of_singleton.
      unfold item_key in Hk. rewrite Hid in Hk. by apply new_id_not_key in Hk.
    + apply Forall_app. split; [done|]. constructor; [by left|constructor].
Qed.

(** X18: ids are handed out from the highest id of the file, so an id
    comes back when the newest record goes: deleting the record a
    submission has just added gives the file of before, and the next
    submission gets the same id again. *)
Theorem new_id_reused today now_str fm (store store' : list item) :
  add_sub_submit today now_str fm store = Ret (store', Succes) →
  ∃ new, store' = store ++ [new] ∧
         id new = Some (new_id store) ∧
         delete (item_key new) store' = store ∧
         new_id (delete (item_key new) store') = new_id store.
Proof.
  intros [[_ [=]] | (new & -> & _ & Hid & _)]%add_sub_submit_inv.
  exists new.
  assert (delete (item_key new) (store ++ [new]) = store) as Hdel.
  { unfold delete. rewrite filter_app.
    rewrite filter_cons_False by (rewrite key_eqb_item_key; done).
    rewrite filter_nil, app_nil_r.
    apply (delete_no_match (item_key new)).
    intros s Hs. apply not_true_iff_false. intros Heq%key_eqb_eq.
    apply (new_id_not_key store). unfold item_key in Heq at 2. rewrite Hid in Heq.
    rewrite <- Heq. by apply list_elem_of_fmap_2. }
  by rewrite Hdel.
Qed.

(** ** The text widgets *)

Lemma lstrip_all_space s : all_space s = true → lstrip s = "".
Proof.
  induction s as [|c s IH]; simpl; [done|].
  intros [-> Hs]%andb_true_iff. auto.
Qed.

(** X19: a custom name, or a custom category, typed as blanks only is not
    replaced by the choice of the select box: it is stripped to the empty
    text, and the submission is refused with the file left as it is. *)
Theorem blank_custom_refused custom choice today now_str fm (store : list item) :
  custom ≠ "" → all_space custom = true →
  fm_name fm = widget_value custom choice ∨
  fm_category fm = widget_value custom choice →
  widget_value custom choice = "" ∧
  add_sub_submit today now_str fm store = Ret (store, Erreur).
Proof.
  intros Hne Hblank Hfm.
  assert (widget_value custom choice = "") as Hval.
  { unfold widget_value, strip. destruct custom; [done|].
    by rewrite lstrip_all_space. }
  split; [done|]. rewrite Hval in Hfm. unfold add_sub_submit.
  destruct Hfm as [-> | ->]; simpl; [done|].
  by rewrite orb_true_r.
Qed.


(** ** The summary by category *)

Global Instance string_le_total : Total string_le.
Proof. intros a b. apply String.leb_total. Qed.

Lemma sum_list_with_zero {A} (l : list A) : sum_list_with (λ _, 0%nat) l = 0%nat.
Proof. induction l; simpl; lia. Qed.

Lemma sum_list_with_indicator (x : string) (ks : list string) :
  NoDup ks → x ∈ ks →
  sum_list_with (λ k, if decide (x = k) then 1%nat else 0%nat) ks = 1%nat.
Proof.
  induction 1 as [|k ks Hk Hnd IH]; [by intros ?%elem_of_nil|].
  intros Hx. simpl. destruct (decide (x = k)) as [-> | Hne].
  - assert (sum_list_with (λ k0, if decide (k = k0) then 1%nat else 0%nat) ks = 0%nat)
      as ->; [|done].
    clear IH Hx Hnd. induction ks as [|k' ks IH]; simpl; [done|].
    destruct (decide (k = k')) as [-> | ?].
    + destruct Hk. left.
    + apply IH. intros ?. apply Hk. by right.
  - apply elem_of_cons in Hx as [? | Hx]; [done|]. by rewrite IH.
Qed.

Lemma sum_counts (act : list row) (ks : list string) :
  NoDup ks → (∀ r, r ∈ act → col_category r ∈ ks) →
  sum_list_with (λ k, length (filter (λ r, col_category r = k) act)) ks = length act.
Proof.
  intros Hnd. induction act as [|r act IH]; intros Hks.
  - apply sum_list_with_zero.
  - assert (sum_list_with
              (λ k, length (filter (λ r0, col_category r0 = k) (r :: act))) ks
            = (sum_list_with (λ k, if decide (col_category r = k) then 1 else 0) ks
               + sum_list_with (λ k, length (filter (λ r0, col_category r0 = k) act)) ks)%nat)
      as ->.
    { clear. induction ks as [|k ks IHks]; simpl; [done|].
      rewrite filter_cons.
      destruct (decide (col_category r = k)); simpl in *; lia. }
    rewrite (sum_list_with_indicator (col_category r) ks Hnd) by (apply Hks; left).
    rewrite IH by (intros ? ?; apply Hks; by right). done.
Qed.

(** X20: the summary by category has one line per category of the active
    subscriptions, the categories in increasing order, each with the
    number of active subscriptions of that category (at least one); the
    numbers add up to the number of active subscriptions. *)
Theorem cat_counts_spec (df : list row) :
  NoDup (cat_counts df).*1 ∧
  Sorted string_le (cat_counts df).*1 ∧
  (∀ k, k ∈ (cat_counts df).*1 ↔ ∃ r, r ∈ df_active df ∧ col_category r = k) ∧
  (∀ k n, (k, n) ∈ cat_counts df →
     n = length (filter (λ r, col_category r = k) (df_active df)) ∧ (1 ≤ n)%nat) ∧
  sum_list_with snd (cat_counts df) = length (df_active df).
Proof.
  unfold cat_counts. set (act := df_active df).
  set (ks := merge_sort string_le (remove_dups (col_category <$> act))).
  assert (ks ≡ₚ remove_dups (col_category <$> act)) as Hperm
    by apply merge_sort_Permutation.
  assert (NoDup ks) as Hnd by (rewrite Hperm; apply NoDup_remove_dups).
  assert (∀ k, k ∈ ks ↔ ∃ r, r ∈ act ∧ col_category r = k) as Hks.
  { intros k. rewrite Hperm, elem_of_remove_dups, list_elem_of_fmap.
    split; intros (r & ? & ?); exists r; by split. }
  assert (((λ k, (k, length (filter (λ r, col_category r = k) act))) <$> ks).*1 = ks)
    as Hfst.
  { rewrite <- list_fmap_compose. apply list_fmap_id. }
  rewrite Hfst. split_and!; try done.
  - apply Sorted_merge_sort. apply _.
  - intros k n (k' & [= -> ->] & Hk')%list_elem_of_fmap. split; [done|].
    apply Hks in Hk' as (r & Hr & Hcat).
    assert (r ∈ filter (λ r, col_category r = k') act) as Hin
      by (by apply list_elem_of_filter).
    destruct (filter _ act); [by apply elem_of_nil in Hin | simpl; lia].
  - rewrite <- (sum_counts act ks Hnd) by (intros r Hr; apply Hks; eauto).
    clear. induction ks as [|k ks IH]; csimpl; [done|]. by rewrite IH.
Qed.


(** ** The file and the ids *)

Lemma foldr_max_le (l : list Z) b :
  0 ≤ b → (∀ x, x ∈ l → x ≤ b) → foldr Z.max 0 l ≤ b.
Proof.
  intros Hb. induction l as [|x l IH]; intros Hall; simpl; [done|].
  pose proof (Hall x ltac:(left)).
  assert (foldr Z.max 0 l ≤ b) by (apply IH; intros ? ?; apply Hall; by right).
  lia.
Qed.

Lemma foldr_max_ge (l : list Z) x : x ∈ l → x ≤ foldr Z.max 0 l.
Proof.
  induction l as [|y l IH]; [by intros ?%elem_of_nil|].
  intros [-> | Hx]%elem_of_cons; simpl; [lia|]. specialize (IH Hx). lia.
Qed.

Lemma counted_new_id (store : list item) :
  counted store → new_id store = Z.of_nat (length store) + 1.
Proof.
  unfold counted, new_id. intros Hids.
  assert ((λ s, default 0 (id s)) <$> store = seqZ 1 (Z.of_nat (length store))) as ->.
  { change (λ s : item, default 0 (id s)) with (default 0 ∘ (id : item → option Z)).
    rewrite list_fmap_compose, Hids, <- list_fmap_compose. apply list_fmap_id. }
  f_equal. apply Z.le_antisymm.
  - apply foldr_max_le; [lia|]. intros x Hx%elem_of_seqZ. lia.
  - destruct (length store) as [|n] eqn:Hlen; [done|].
    apply foldr_max_ge, elem_of_seqZ. lia.
Qed.

Lemma counted_add today now_str fm (store store' : list item) msg :
  counted store →
  add_sub_submit today now_str fm store = Ret (store', msg) → counted store'.
Proof.
  intros Hc [[-> _] | (new & -> & _ & Hid & _)]%add_sub_submit_inv; [done|].
  unfold counted in *. rewrite fmap_app, length_app, Hc. simpl.
  rewrite Hid, (counted_new_id _ Hc).
  replace (length store + 1)%nat with (S (length store)) by lia.
  rewrite seqZ_S, fmap_app. simpl. do 3 f_equal. lia.
Qed.

(** X21: on a fresh installation (no file yet), whatever the submissions
    of the form, accepted or refused, the file exists after the first
    run and its records carry the ids 1, 2, 3, ... in the order of their
    creation, without a gap. *)
Theorem fresh_install_ids (evs : list (date * string * form)) file :
  run_submits to_datetime evs None = Ret file →
  (evs ≠ [] → is_Some file) ∧
  id <$> default [] file = Some <$> seqZ 1 (Z.of_nat (length (default [] file))).
Proof.
  assert (∀ evs (f0 : option (list item)) file,
    counted (default [] f0) → run_submits to_datetime evs f0 = Ret file →
    (evs ≠ [] → is_Some file) ∧ counted (default [] file)) as Hgen.
  { clear evs file. induction evs as [|[[today now_str] fm] evs IH];
      intros f0 file Hc; simpl.
    - by intros [= <-].
    - unfold run_submit, load_json.
      destruct (to_dataframe to_datetime today (default [] (ensure_store f0)))
        as [df| |]; simpl; try done.
      destruct (add_sub_submit today now_str fm (default [] (ensure_store f0)))
        as [[subs msg]| |] eqn:Hadd; simpl; try done.
      assert (counted (default [] (ensure_store f0))) as Hc0 by (by destruct f0).
      pose proof (counted_add _ _ _ _ _ _ Hc0 Hadd) as Hc1.
      set (f1 := match msg with
                 | Succes => save_json subs (ensure_store (ensure_store f0))
                 | Erreur => ensure_store f0
                 end).
      assert (is_Some f1) as Hsome.
      { subst f1. destruct msg; [by destruct f0 | by eexists]. }
      assert (counted (default [] f1)) as Hc2.
      { subst f1. destruct msg; simpl; [|done].
        by apply add_sub_submit_inv in Hadd as [[-> _] | (? & _ & [=] & _)]. }
      intros Hrun. pose proof (IH f1 file Hc2 Hrun) as [Hrest Hcount].
      split; [|done]. intros _. destruct evs as [|ev evs]; [|by apply Hrest].
      simpl in Hrun. by injection Hrun as <-. }
  intros Hrun. by apply (Hgen evs None file).
Qed.

End properties.

(** * The properties on the sample records *)



Lemma next_renewal_loop_terminates_witness :
  valid_date sample_today = true ∧
  strptime "2024-01-15" = Ret (mkdate 2024 1 15) ∧
  next_renewal_from (F:=Q) sample_today "2024-01-15" "Trimestriel" ≠ Diverge.
Proof.
  split; [reflexivity|]. split; [reflexivity|].
  destruct (next_renewal_loop_terminates (F:=Q) sample_today "2024-01-15"
              "Trimestriel" (mkdate 2024 1 15) eq_refl eq_refl) as (_ & _ & Hend & _).
  exact Hend.
Defined.

Lemma next_renewal_from_first_after_witness :
  ∃ k d',
    next_renewal_from (F:=Q) sample_today "2023-01-31" "Mensuel"
      = Ret (Some (strftime d')) ∧
    steps k (delta (frequence_get (F:=Q) "Mensuel")) (mkdate 2023 1 31) = Ret d' ∧
    date_ltb sample_today d' = true ∧
    ∀ j, (j < k)%nat →
      ∃ dj, steps j (delta (frequence_get (F:=Q) "Mensuel")) (mkdate 2023 1 31) = Ret dj ∧
            date_leb dj sample_today = true.
Proof.
  apply (next_renewal_from_first_after (F:=Q) sample_today "2023-01-31" "Mensuel");
    reflexivity.
Defined.

(** C1 as stated fails in the last year of the calendar: the walk from
    9999-12-01 must pass 9999-12-15, and the step to January 10000 raises
    [ValueError]. *)
Lemma next_renewal_from_calendar_end :
  valid_date (mkdate 9999 12 15) = true ∧
  strptime "9999-12-01" = Ret (mkdate 9999 12 1) ∧
  next_renewal_from (F:=Q) (mkdate 9999 12 15) "9999-12-01" "Mensuel"
    = Raise ValueError.
Proof. split_and!; reflexivity. Qed.

Lemma to_dataframe_costs_witness :
  ∃ r, src r = canal ∧ monthly_cost r = 10%Q ∧ annual_cost r = 120%Q.
Proof.
  destruct (to_dataframe (F:=Q) iso_date sample_today [netflix; canal])
    as [df| |] eqn:Hdf; [|discriminate Hdf..].
  destruct (to_dataframe_costs (F:=Q) iso_date sample_today [netflix; canal] df
              1%nat canal 120%Q "Annuel" Hdf eq_refl eq_refl eq_refl)
    as (r & _ & Hsrc & Hm & Ha).
  { right. right. reflexivity. }
  exists r. split; [exact Hsrc|]. rewrite Ha, Hm. split; reflexivity.
Defined.

(** A file whose records carry no [next_renewal]: the table projects it. *)
Lemma to_dataframe_next_renewal_witness :
  ∃ r, src r = sample 4 "Molotov" 5 "Mensuel" "2024-01-15" Absent "active" ∧
       col_next_renewal r = Some (mkdate 2024 3 15).
Proof.
  set (s := sample 4 "Molotov" 5 "Mensuel" "2024-01-15" Absent "active").
  destruct (to_dataframe (F:=Q) iso_date sample_today [s]) as [df| |] eqn:Hdf;
    [|discriminate Hdf..].
  destruct (to_dataframe_next_renewal (F:=Q) iso_date sample_today [s] df 0%nat s
              Hdf eq_refl) as (r & _ & Hsrc & Hnext).
  simpl in Hnext. destruct Hnext as (nr & Hnr & Hcol & _).
  exists r. split; [exact Hsrc|].
  rewrite Hcol. injection Hnr as <-. reflexivity.
Defined.

(** C3 as stated fails on a record the form wrote on 2024-01-15: on
    2024-03-10 the table still shows the persisted 2024-02-15, which is
    before today, where the projection gives 2024-03-15. *)
Lemma to_dataframe_keeps_persisted :
  (fmap (M:=list) col_next_renewal <$>
     to_dataframe (F:=Q) iso_date sample_today [netflix])
    = Ret [Some (mkdate 2024 2 15)] ∧
  next_renewal_from (F:=Q) sample_today "2024-01-15" "Mensuel"
    = Ret (Some "2024-03-15") ∧
  date_ltb sample_today (mkdate 2024 2 15) = false.
Proof. split_and!; reflexivity. Qed.

(** C5, on the code: the record the form wrote on 2024-01-15 is listed
    among the renewals of the next seven days on 2024-03-10, with the
    renewal date 2024-02-15, which is 24 days before today. *)
Theorem renew_soon_keeps_overdue :
  ∃ r,
    (renew_soon sample_now <$> to_dataframe (F:=Q) iso_date sample_today [netflix])
      = Ret [r] ∧
    src r = netflix ∧
    col_status r = Some "active" ∧
    col_next_renewal r = Some (mkdate 2024 2 15) ∧
    date_ltb (mkdate 2024 2 15) (ts_date sample_now) = true ∧
    toordinal (mkdate 2024 2 15) + 24 = toordinal (ts_date sample_now).
Proof. eexists. split_and!; reflexivity. Qed.





(** ** The further properties on the sample records *)



Lemma to_dataframe_no_start_date_witness :
  ∃ df, to_dataframe (F:=Q) iso_date sample_today [molotov] = Ret df ∧
    ∃ r d',
      df !! 0%nat = Some r ∧
      relativedelta_add (mkdelta 0 1) sample_today = Ret d' ∧
      col_next_renewal r = iso_date (strftime d').
Proof.
  eexists. split; [reflexivity|].
  apply (to_dataframe_no_start_date (F:=Q) iso_date sample_today [molotov] _
           0%nat molotov eq_refl eq_refl); [|reflexivity].
  intros s ->%list_elem_of_singleton. split; reflexivity.
Defined.

Lemma to_dataframe_unparsable_start_witness :
  ∃ df,
    to_dataframe (F:=Q) iso_date sample_today
      [sample 5 "Strava" 5 "Mensuel" "15/01/2024" Absent "active"] = Ret df ∧
    ∃ r, df !! 0%nat = Some r ∧ col_next_renewal r = None ∧
         ∀ now, r ∉ renew_soon now df.
Proof.
  eexists. split; [reflexivity|].
  apply (to_dataframe_unparsable_start (F:=Q) iso_date sample_today
           [sample 5 "Strava" 5 "Mensuel" "15/01/2024" Absent "active"] _ 0%nat
           (sample 5 "Strava" 5 "Mensuel" "15/01/2024" Absent "active") eq_refl);
    [|reflexivity|].
  - by intros ? ->%list_elem_of_singleton.
  - left. exists "15/01/2024". split; reflexivity.
Defined.

Lemma to_dataframe_KeyError_witness :
  ∃ df, to_dataframe (F:=Q) iso_date sample_today [netflix; molotov] = Ret df.
Proof.
  apply (to_dataframe_KeyError (F:=Q) iso_date sample_today [netflix; molotov]);
    [reflexivity | reflexivity | discriminate |].
  split; exists netflix; (split; [left | by eexists]).
Defined.



Lemma renew_soon_spec_witness :
  valid_timestamp sample_now = true ∧
  ∀ r : @row Q,
    r ∈ renew_soon sample_now [] ↔
    r ∈ [] ∧ col_status r = Some "active" ∧
    ∃ d, col_next_renewal r = Some d ∧ toordinal d ≤ toordinal (ts_date sample_now) + 7.
Proof.
  split; [reflexivity|].
  intros r. apply (renew_soon_spec (F:=Q) sample_now [] r). reflexivity.
Defined.

Lemma renew_soon_all_day_witness :
  0 ≤ NS_PER_DAY / 2 < NS_PER_DAY ∧
  ∀ df : list (@row Q),
    renew_soon (mktimestamp sample_today 0) df = renew_soon sample_now df.
Proof.
  split; [split; done|].
  intros df. apply (renew_soon_all_day (F:=Q)); split; done.
Defined.

Lemma tab2_click_without_id_witness :
  ∃ df, to_dataframe (F:=Q) iso_date sample_today [netflix; molotov] = Ret df ∧
        tab2_click df 1 [netflix; molotov] = [netflix; molotov].
Proof.
  eexists. split; [reflexivity|].
  apply (tab2_click_without_id (F:=Q) iso_date sample_today [netflix; molotov] _
           1%nat molotov eq_refl eq_refl eq_refl).
  exists netflix. split; [left | by eexists].
Defined.

Lemma sample_store_NoDup : NoDup (item_key <$> [netflix; canal]).
Proof. apply (bool_decide_unpack _). vm_compute. exact I. Qed.



Lemma sample_store_well_formed : well_formed [netflix; canal].
Proof.
  split; [apply sample_store_NoDup|].
  constructor; [left; reflexivity|]. constructor; [right; reflexivity|]. constructor.
Qed.

Lemma well_formed_kept_witness :
  well_formed [netflix; canal] ∧
  ∀ (dff : list (@row Q)) i, well_formed (tab2_click dff i [netflix; canal]).
Proof.
  split; [apply sample_store_well_formed|].
  apply (well_formed_kept (F:=Q) [netflix; canal] sample_store_well_formed).
Defined.

Lemma add_sub_submit_accepted_witness :
  ∃ new d,
    add_sub_submit (F:=Q) sample_today "2024-03-10 12:00:00" spotify [netflix; canal]
      = Ret ([netflix; canal] ++ [new], Succes) ∧
    id new = Some (new_id [netflix; canal]) ∧
    (∀ s, s ∈ [netflix; canal] → id s ≠ id new) ∧
    status new = Some "active" ∧
    next_renewal new = Val (strftime d) ∧
    date_ltb sample_today d = true.
Proof.
  apply (add_sub_submit_accepted (F:=Q) sample_today "2024-03-10 12:00:00" spotify
           [netflix; canal]); try reflexivity; discriminate.
Defined.

Lemma new_id_reused_witness :
  ∃ store',
    add_sub_submit (F:=Q) sample_today "2024-03-10 12:00:00" spotify [netflix; canal]
      = Ret (store', Succes) ∧
    ∃ new, store' = [netflix; canal] ++ [new] ∧
           id new = Some (new_id [netflix; canal]) ∧
           delete (item_key new) store' = [netflix; canal] ∧
           new_id (delete (item_key new) store') = new_id [netflix; canal].
Proof.
  eexists. split; [reflexivity|].
  apply (new_id_reused (F:=Q) sample_today "2024-03-10 12:00:00" spotify).
  reflexivity.
Defined.

Lemma blank_custom_refused_witness :
  widget_value "   " "Netflix" = "".
Proof.
  apply (blank_custom_refused (F:=Q) "   " "Netflix" sample_today "now"
           (mkform "" "Vidéo" 5%Q "Mensuel" sample_today "PayPal" "") []);
    [discriminate | reflexivity | left; reflexivity].
Defined.

Lemma fresh_install_ids_witness :
  ∃ file,
    run_submits (F:=Q) iso_date
      [(sample_today, "2024-03-10 12:00:00", spotify);
       (sample_today, "2024-03-10 12:05:00", spotify)] None = Ret file ∧
    id <$> default [] file = Some <$> seqZ 1 (Z.of_nat (length (default [] file))).
Proof.
  eexists. split; [vm_compute; reflexivity|].
  apply (fresh_install_ids (F:=Q) iso_date
           [(sample_today, "2024-03-10 12:00:00", spotify);
            (sample_today, "2024-03-10 12:05:00", spotify)]).
  vm_compute. reflexivity.
Defined.
